(** * London Airbnb price dashboard: the filter-and-aggregate pipeline

    A shallow embedding of [app.py].  The dashboard loads one CSV file into
    a pandas DataFrame, casts two columns to the category dtype, and serves
    five chart callbacks that all start from [filter_df].  One callback,
    [update_avg], also groups the filtered rows and averages [realSum].

    Numeric columns are float64 in the program; here they are rationals
    ([Q]), so the mean below is the exact arithmetic mean. *)

From Stdlib Require Import List String Ascii Bool Arith Lia ZArith QArith.
From Stdlib Require Import Permutation Btauto Sorted.
Import ListNotations.

Close Scope Q_scope.
Open Scope string_scope.

(** ** Data model *)

(** One line of [london_airbnb_clean.csv] after [pd.read_csv].  The file is
    the output of a cleaning step: every column is populated except
    [satisfaction_bucket], whose empty cells are read as NaN ([None]). *)
Record Row : Type := mkRow {
  realSum : Q;
  price_per_person : Q;
  dist : Q;
  attr_index : Q;
  person_capacity : Q;
  room_type : string;
  time_period : string;
  distance_bucket : string;
  satisfaction_bucket : option string;
  host_is_superhost : bool
}.

(** A DataFrame of listings.  Besides its rows (in index order) the frame
    carries the category lists of the two columns that lines 11-12 cast with
    [astype("category")]: a categorical column keeps all its categories when
    rows are selected out of it. *)
Record Frame : Type := mkFrame {
  rows : list Row;
  room_type_categories : list string;
  time_period_categories : list string
}.

(** ** The pandas operations the program calls *)

Module Pandas.

(** [Series.isin(values)] on one cell. *)
Definition isin (v : string) (values : list string) : bool :=
  existsb (String.eqb v) values.

(** [Series.astype(str)] on one cell of an object column: text stays as
    it is and NaN becomes the text [nan]. *)
Definition astype_str (c : option string) : string :=
  match c with
  | Some s => s
  | None => "nan"
  end.

(** [d[mask]]: boolean indexing keeps the rows whose mask is true, in
    order, and keeps the dtypes (so the categories) of the columns. *)
Definition select (mask : Row -> bool) (d : Frame) : Frame :=
  {| rows := filter mask (rows d);
     room_type_categories := room_type_categories d;
     time_period_categories := time_period_categories d |}.

(** [DataFrame.copy()]: a new frame with the same content. *)
Definition copy (d : Frame) : Frame := d.

(** [Series.unique()]: the distinct values in order of first appearance
    ([nodup] keeps last occurrences, hence the two reversals). *)
Definition unique {A : Type} (dec : forall a b : A, {a = b} + {a <> b})
    (l : list A) : list A :=
  rev (nodup dec (rev l)).

(** [Series.dropna()]. *)
Fixpoint dropna (l : list (option string)) : list string :=
  match l with
  | [] => []
  | Some s :: t => s :: dropna t
  | None :: t => dropna t
  end.

(** Insertion sort, for [sorted(...)] and for the ordered results of
    [astype("category")] and [groupby(..., sort=True)]. *)
Section Sort.
Context {A : Type} (le : A -> A -> bool).

Fixpoint insert (x : A) (l : list A) : list A :=
  match l with
  | [] => [x]
  | y :: t => if le x y then x :: y :: t else y :: insert x t
  end.

Fixpoint sort (l : list A) : list A :=
  match l with
  | [] => []
  | x :: t => insert x (sort t)
  end.
End Sort.

Definition sorted (l : list string) : list string := sort String.leb l.

(** The categories that [astype("category")] gives a text column: its
    distinct values, sorted. *)
Definition categories_of (l : list string) : list string :=
  sorted (unique string_dec l).

(** The strings that [read_csv] reads as NaN when called, as here, with
    its default [na_values]. *)
Definition na_values : list string :=
  [ ""; "#N/A"; "#N/A N/A"; "#NA"; "-1.#IND"; "-1.#QNAN"; "-NaN"; "-nan";
    "1.#IND"; "1.#QNAN"; "<NA>"; "N/A"; "NA"; "NULL"; "NaN"; "None";
    "n/a"; "nan"; "null" ].

Definition read_cell (s : string) : option string :=
  if isin s na_values then None else Some s.

End Pandas.

(** Python's truth value of a list: [if room_types:] is taken for a
    non-empty list only. *)
Definition truthy {A : Type} (l : list A) : bool :=
  match l with
  | [] => false
  | _ :: _ => true
  end.

(** ** Section 1 of app.py: loading *)

(** A record of the CSV file before [read_csv] has decided which cells of
    [satisfaction_bucket] are NaN.  The cells of the other text columns are
    populated: none of them is a NaN token. *)
Record CsvRecord : Type := mkCsv {
  csv_realSum : Q;
  csv_price_per_person : Q;
  csv_dist : Q;
  csv_attr_index : Q;
  csv_person_capacity : Q;
  csv_room_type : string;
  csv_time_period : string;
  csv_distance_bucket : string;
  csv_satisfaction_bucket : string;
  csv_host_is_superhost : bool
}.

Definition read_record (c : CsvRecord) : Row :=
  {| realSum := csv_realSum c;
     price_per_person := csv_price_per_person c;
     dist := csv_dist c;
     attr_index := csv_attr_index c;
     person_capacity := csv_person_capacity c;
     room_type := csv_room_type c;
     time_period := csv_time_period c;
     distance_bucket := csv_distance_bucket c;
     satisfaction_bucket := Pandas.read_cell (csv_satisfaction_bucket c);
     host_is_superhost := csv_host_is_superhost c |}.

Definition read_csv (file : list CsvRecord) : list Row :=
  map read_record file.

(** Lines 10-12: [df = pd.read_csv(...)] followed by the two
    [astype("category")] casts. *)
Definition load (file : list CsvRecord) : Frame :=
  let rs := read_csv file in
  {| rows := rs;
     room_type_categories := Pandas.categories_of (map room_type rs);
     time_period_categories := Pandas.categories_of (map time_period rs) |}.

(** The invariant of a frame whose [room_type] and [time_period] columns
    are categorical: the categories are distinct and every value of the
    column is one of them. *)
Definition categorical (d : Frame) : Prop :=
  NoDup (room_type_categories d) /\
  NoDup (time_period_categories d) /\
  forall r, In r (rows d) ->
            In (room_type r) (room_type_categories d) /\
            In (time_period r) (time_period_categories d).

(** ** Section 3 of app.py: dropdown options *)

Record DropdownOption : Type := mkOption {
  label : string;
  value : string
}.

Definition room_type_options (df : Frame) : list DropdownOption :=
  map (fun rt => mkOption rt rt)
      (Pandas.sorted (Pandas.unique string_dec (map room_type (rows df)))).

Definition time_period_options (df : Frame) : list DropdownOption :=
  map (fun tp => mkOption tp tp) (time_period_categories df).

Definition sat_bucket_options (df : Frame) : list DropdownOption :=
  map (fun s => mkOption s s)
      (Pandas.unique string_dec
         (Pandas.dropna (map satisfaction_bucket (rows df)))).

(** ** Section 5 of app.py: the filter function *)

Definition filter_df (df : Frame) (room_types time_periods : list string)
    (sat : string) : Frame :=
  let d := Pandas.copy df in
  let d := if truthy room_types
           then Pandas.select (fun r => Pandas.isin (room_type r) room_types) d
           else d in
  let d := if truthy time_periods
           then Pandas.select
                  (fun r => Pandas.isin (time_period r) time_periods) d
           else d in
  let d := if negb (sat =? "All")
           then Pandas.select
                  (fun r => Pandas.astype_str (satisfaction_bucket r) =? sat) d
           else d in
  d.

(** ** The aggregation of [update_avg] (lines 294-297) *)

(** The composite group key [(distance_bucket, room_type, time_period)]. *)
Definition Key : Type := (string * string * string)%type.

Definition key_of (r : Row) : Key :=
  (distance_bucket r, room_type r, time_period r).

Definition key_dec (a b : Key) : {a = b} + {a <> b}.
Proof. repeat decide equality. Defined.

Definition key_eqb (a b : Key) : bool :=
  if key_dec a b then true else false.

(** Lexicographic order on keys, the order of [groupby(..., sort=True)]. *)
Definition key_leb (a b : Key) : bool :=
  let '(d1, r1, t1) := a in
  let '(d2, r2, t2) := b in
  match String.compare d1 d2 with
  | Lt => true
  | Gt => false
  | Eq => match String.compare r1 r2 with
          | Lt => true
          | Gt => false
          | Eq => String.leb t1 t2
          end
  end.

(** A row of [grp]: the three key columns and [avg_price], which is NaN
    ([None]) for a group without rows. *)
Record AvgRow : Type := mkAvg {
  grp_key : Key;
  avg_price : option Q
}.

Definition grp_distance_bucket (g : AvgRow) : string := fst (fst (grp_key g)).
Definition grp_room_type (g : AvgRow) : string := snd (fst (grp_key g)).
Definition grp_time_period (g : AvgRow) : string := snd (grp_key g).

Definition sum (xs : list Q) : Q := fold_right Qplus 0%Q xs.

(** The arithmetic mean of a non-empty list. *)
Definition mean (xs : list Q) : Q :=
  (sum xs / inject_Z (Z.of_nat (List.length xs)))%Q.

(** [Series.mean()] of a group: NaN when the group has no rows. *)
Definition mean_or_nan (xs : list Q) : option Q :=
  match xs with
  | [] => None
  | _ :: _ => Some (mean xs)
  end.

(** The rows of [d] that fall in the group of key [k]. *)
Definition group_rows (d : Frame) (k : Key) : list Row :=
  filter (fun r => key_eqb (key_of r) k) (rows d).

(** The distinct keys that occur in [d], in order of first appearance. *)
Definition keys_present (d : Frame) : list Key :=
  Pandas.unique key_dec (map key_of (rows d)).

(** The result index of [d.groupby([distance_bucket, room_type,
    time_period])].  [room_type] and [time_period] are categorical, so the
    [observed] argument of [groupby] decides: with [observed=True] the index
    holds the keys that occur in [d]; with [observed=False] it holds every
    combination of a distance bucket that occurs in [d] with a category of
    [room_type] and a category of [time_period], whether rows have it or
    not. *)
Definition result_index (observed : bool) (d : Frame) : list Key :=
  if observed
  then Pandas.sort key_leb (keys_present d)
  else
    map (fun '(db, (rt, tp)) => (db, rt, tp))
        (list_prod
           (Pandas.sorted
              (Pandas.unique string_dec (map distance_bucket (rows d))))
           (list_prod (room_type_categories d) (time_period_categories d))).

(** [d.groupby([...], as_index=False)["realSum"].mean()
      .rename(columns={"realSum": "avg_price"})]. *)
Definition groupby_mean (observed : bool) (d : Frame) : list AvgRow :=
  map (fun k => mkAvg k (mean_or_nan (map realSum (group_rows d k))))
      (result_index observed d).

(** ** Section 6 of app.py: the callbacks *)

(** A figure is represented by the request the callback makes to
    plotly.express: which builder, on which data, with which arguments.
    What plotly does with the request is outside the program. *)
Inductive Builder : Type := Scatter | Bar | Box | Histogram.

Inductive PlotData : Type :=
| Listings (d : Frame)
| Averages (g : list AvgRow).

Record LayoutImage : Type := mkImage {
  img_source : string;
  xref : string; yref : string;
  img_x : Q; img_y : Q;
  sizex : Q; sizey : Q;
  xanchor : string; yanchor : string;
  img_opacity : Q
}.

Record Figure : Type := mkFigure {
  builder : Builder;
  data_frame : PlotData;
  x : string;
  y : option string;
  color : option string;
  size : option string;
  animation_frame : option string;
  facet_col : option string;
  hover_data : list string;
  nbins : option nat;
  opacity : option Q;
  barmode : option string;
  title : string;
  layout_images : list LayoutImage
}.

Definition add_layout_image (img : LayoutImage) (fig : Figure) : Figure :=
  {| builder := builder fig; data_frame := data_frame fig;
     x := x fig; y := y fig; color := color fig; size := size fig;
     animation_frame := animation_frame fig; facet_col := facet_col fig;
     hover_data := hover_data fig; nbins := nbins fig;
     opacity := opacity fig; barmode := barmode fig; title := title fig;
     layout_images := (layout_images fig ++ [img])%list |}.

Section Callbacks.

(** The loaded dataset, a module-level global of app.py. *)
Variable df : Frame.

(** The value [groupby] takes for [observed] when, as in [update_avg],
    the call does not pass it: [False] up to pandas 2, [True] from
    pandas 3. *)
Variable observed_default : bool.

Definition update_price_dist (room timep : list string) (sat : string)
    : Figure :=
  let d := filter_df df room timep sat in
  let fig :=
    {| builder := Scatter; data_frame := Listings d;
       x := "dist"; y := Some "realSum"; color := Some "room_type";
       size := Some "person_capacity";
       animation_frame := Some "satisfaction_bucket";
       facet_col := Some "time_period";
       hover_data := ["price_per_person"; "host_is_superhost"];
       nbins := None; opacity := None; barmode := None;
       title := "Price vs Distance to City Center";
       layout_images := [] |} in
  add_layout_image
    {| img_source := "/assets/airbnb_logo.png";
       xref := "paper"; yref := "paper";
       img_x := (115 # 100)%Q; img_y := 0%Q;
       sizex := (32 # 100)%Q; sizey := (32 # 100)%Q;
       xanchor := "right"; yanchor := "bottom";
       img_opacity := (15 # 100)%Q |} fig.

(** The table [grp] that [update_avg] builds before it plots. *)
Definition update_avg_grp (room timep : list string) (sat : string)
    : list AvgRow :=
  let d := filter_df df room timep sat in
  groupby_mean observed_default d.

Definition update_avg (room timep : list string) (sat : string) : Figure :=
  let grp := update_avg_grp room timep sat in
  {| builder := Bar; data_frame := Averages grp;
     x := "distance_bucket"; y := Some "avg_price";
     color := Some "time_period"; size := None;
     animation_frame := Some "room_type"; facet_col := None;
     hover_data := []; nbins := None; opacity := None;
     barmode := Some "group";
     title := "Average Price by Distance Bucket";
     layout_images := [] |}.

Definition update_attr (room timep : list string) (sat : string) : Figure :=
  let d := filter_df df room timep sat in
  {| builder := Scatter; data_frame := Listings d;
     x := "attr_index"; y := Some "price_per_person";
     color := Some "satisfaction_bucket"; size := None;
     animation_frame := None; facet_col := Some "time_period";
     hover_data := ["room_type"; "distance_bucket"];
     nbins := None; opacity := None; barmode := None;
     title := "Attractions Index vs Price per Person";
     layout_images := [] |}.

Definition update_box (room timep : list string) (sat : string) : Figure :=
  let d := filter_df df room timep sat in
  {| builder := Box; data_frame := Listings d;
     x := "distance_bucket"; y := Some "price_per_person";
     color := Some "time_period"; size := None;
     animation_frame := None; facet_col := None;
     hover_data := []; nbins := None; opacity := None; barmode := None;
     title := "Price per Person by Distance Bucket";
     layout_images := [] |}.

Definition update_hist (room timep : list string) (sat : string) : Figure :=
  let d := filter_df df room timep sat in
  let fig :=
    {| builder := Histogram; data_frame := Listings d;
       x := "realSum"; y := None;
       color := Some "satisfaction_bucket"; size := None;
       animation_frame := None; facet_col := None;
       hover_data := []; nbins := Some 40%nat; opacity := Some (75 # 100)%Q;
       barmode := None;
       title := "Price Distribution";
       layout_images := [] |} in
  add_layout_image
    {| img_source := "/assets/london_flag.png";
       xref := "paper"; yref := "paper";
       img_x := (5 # 10)%Q; img_y := (5 # 10)%Q;
       sizex := 1%Q; sizey := 1%Q;
       xanchor := "center"; yanchor := "middle";
       img_opacity := (9 # 100)%Q |} fig.

End Callbacks.

(** ** Section 4 of app.py: the layout and the callback wiring *)

(** The [dash_table.DataTable] of the layout: the records it is given and
    its page size. *)
Record DataTable : Type := mkTable {
  table_data : list Row;
  page_size : nat
}.

(** The [n]-th page (from 0) that the table shows. *)
Definition page (t : DataTable) (n : nat) : list Row :=
  firstn (page_size t) (skipn (n * page_size t) (table_data t)).

(** [df.head(n).to_dict("records")]. *)
Definition head_records (n : nat) (d : Frame) : list Row :=
  firstn n (rows d).

(** The component properties that the program reads or writes: the values
    of the three filter controls, the [figure] of the five graphs, and the
    preview table. *)
Record App : Type := mkApp {
  room_type_filter : list string;
  time_period_filter : list string;
  satisfaction_filter : string;
  price_distance : option Figure;
  avg_price_distance : option Figure;
  attr_price : option Figure;
  box_distance : option Figure;
  price_hist : option Figure;
  cleaned_table : DataTable
}.

(** A change of one filter control in the browser. *)
Inductive Event : Type :=
| ChangeRoomType (v : list string)
| ChangeTimePeriod (v : list string)
| ChangeSatisfaction (v : string).

Section Dashboard.

Variable df : Frame.
Variable observed_default : bool.

Definition layout : App :=
  {| room_type_filter := map value (room_type_options df);
     time_period_filter := map value (time_period_options df);
     satisfaction_filter := "All";
     price_distance := None;
     avg_price_distance := None;
     attr_price := None;
     box_distance := None;
     price_hist := None;
     cleaned_table :=
       {| table_data := head_records 25 df; page_size := 10 |} |}.

Definition set_input (ev : Event) (a : App) : App :=
  match ev with
  | ChangeRoomType v =>
      {| room_type_filter := v;
         time_period_filter := time_period_filter a;
         satisfaction_filter := satisfaction_filter a;
         price_distance := price_distance a;
         avg_price_distance := avg_price_distance a;
         attr_price := attr_price a;
         box_distance := box_distance a;
         price_hist := price_hist a;
         cleaned_table := cleaned_table a |}
  | ChangeTimePeriod v =>
      {| room_type_filter := room_type_filter a;
         time_period_filter := v;
         satisfaction_filter := satisfaction_filter a;
         price_distance := price_distance a;
         avg_price_distance := avg_price_distance a;
         attr_price := attr_price a;
         box_distance := box_distance a;
         price_hist := price_hist a;
         cleaned_table := cleaned_table a |}
  | ChangeSatisfaction v =>
      {| room_type_filter := room_type_filter a;
         time_period_filter := time_period_filter a;
         satisfaction_filter := v;
         price_distance := price_distance a;
         avg_price_distance := avg_price_distance a;
         attr_price := attr_price a;
         box_distance := box_distance a;
         price_hist := price_hist a;
         cleaned_table := cleaned_table a |}
  end.

(** The five [@app.callback] registrations: each callback has the three
    filter values as its inputs and the [figure] of one graph as its only
    output. *)
Definition run_callbacks (a : App) : App :=
  let room := room_type_filter a in
  let timep := time_period_filter a in
  let sat := satisfaction_filter a in
  {| room_type_filter := room;
     time_period_filter := timep;
     satisfaction_filter := sat;
     price_distance := Some (update_price_dist df room timep sat);
     avg_price_distance :=
       Some (update_avg df observed_default room timep sat);
     attr_price := Some (update_attr df room timep sat);
     box_distance := Some (update_box df room timep sat);
     price_hist := Some (update_hist df room timep sat);
     cleaned_table := cleaned_table a |}.

Definition dispatch (a : App) (ev : Event) : App :=
  run_callbacks (set_input ev a).

(** The page after its first load and a sequence of filter changes. *)
Definition serve (events : list Event) : App :=
  fold_left dispatch events (run_callbacks layout).

End Dashboard.

(** ** The dataset as a shared object *)

(** [df] is a module-level global that every call of [filter_df] reads.
    To speak about mutation the frames live in a heap of objects; a Python
    variable holds a reference.  [None] stands for a raised exception. *)
Module Store.

Inductive Obj : Type :=
| ListingFrame (d : Frame)
| GroupedFrame (g : list AvgRow).

Definition Heap : Type := list Obj.
Definition ref : Type := nat.

Definition M (A : Type) : Type := Heap -> option (A * Heap).

Definition ret {A : Type} (a : A) : M A := fun h => Some (a, h).

Definition bind {A B : Type} (c : M A) (k : A -> M B) : M B :=
  fun h =>
    match c h with
    | Some (a, h') => k a h'
    | None => None
    end.

Notation "x <- c ;; k" := (bind c (fun x => k))
  (at level 61, c at next level, right associativity).

(** A new object gets the next free address. *)
Definition alloc (o : Obj) : M ref :=
  fun h => Some (List.length h, (h ++ [o])%list).

Definition read_frame (p : ref) : M Frame :=
  fun h =>
    match nth_error h p with
    | Some (ListingFrame d) => Some (d, h)
    | _ => None
    end.

(** [p.copy()] *)
Definition copy (p : ref) : M ref :=
  d <- read_frame p ;; alloc (ListingFrame (Pandas.copy d)).

(** [p[mask]] *)
Definition getitem (mask : Row -> bool) (p : ref) : M ref :=
  d <- read_frame p ;; alloc (ListingFrame (Pandas.select mask d)).

Definition filter_df (df : ref) (room_types time_periods : list string)
    (sat : string) : M ref :=
  d <- copy df ;;
  d <- (if truthy room_types
        then getitem (fun r => Pandas.isin (room_type r) room_types) d
        else ret d) ;;
  d <- (if truthy time_periods
        then getitem (fun r => Pandas.isin (time_period r) time_periods) d
        else ret d) ;;
  d <- (if negb (sat =? "All")
        then getitem
               (fun r => Pandas.astype_str (satisfaction_bucket r) =? sat) d
        else ret d) ;;
  ret d.

(** The frame a callback hands to its chart builder: [grp] for
    [update_avg], [d] for the other four. *)
Inductive Callback : Type :=
| UpdatePriceDist | UpdateAvg | UpdateAttr | UpdateBox | UpdateHist.

Definition callback (observed_default : bool) (df : ref) (c : Callback)
    (room timep : list string) (sat : string) : M ref :=
  d <- filter_df df room timep sat ;;
  match c with
  | UpdateAvg =>
      fr <- read_frame d ;;
      alloc (GroupedFrame (groupby_mean observed_default fr))
  | _ => ret d
  end.

(** What a request can run. *)
Inductive Call : Type :=
| CallFilter (room_types time_periods : list string) (sat : string)
| CallCallback (c : Callback) (room timep : list string) (sat : string).

Definition run_call (observed_default : bool) (df : ref) (c : Call)
    : M unit :=
  match c with
  | CallFilter rt tp sat => _ <- filter_df df rt tp sat ;; ret tt
  | CallCallback cb rt tp sat =>
      _ <- callback observed_default df cb rt tp sat ;; ret tt
  end.

Fixpoint run_calls (observed_default : bool) (df : ref) (cs : list Call)
    : M unit :=
  match cs with
  | [] => ret tt
  | c :: cs' =>
      _ <- run_call observed_default df c ;;
      run_calls observed_default df cs'
  end.

(** The heap right after lines 10-12, with [df] at address 0. *)
Definition boot (file : list CsvRecord) : Heap := [ListingFrame (load file)].

Definition df : ref := 0.

(** What a program returns on a heap: it does not raise, its result is a
    reference, at address [n] or above, to a listing frame with rows and
    categories [d], and the heap has only grown. *)
Definition returns (n : nat) (c : M ref) (h : Heap) (d : Frame) : Prop :=
  exists p t, c h = Some (p, (h ++ t)%list) /\
              nth_error (h ++ t) p = Some (ListingFrame d) /\
              (n <= p)%nat.

End Store.

(** ** Reference definitions, in the words of the specification *)

Module Spec.

(** The three conditions a retained row satisfies. *)
Definition retained (room_types time_periods : list string) (sat : string)
    (r : Row) : Prop :=
  (room_types <> [] -> In (room_type r) room_types) /\
  (time_periods <> [] -> In (time_period r) time_periods) /\
  (sat <> "All" -> Pandas.astype_str (satisfaction_bucket r) = sat).

Definition retainedb (room_types time_periods : list string) (sat : string)
    (r : Row) : bool :=
  (match room_types with
   | [] => true
   | _ => Pandas.isin (room_type r) room_types
   end)
  && (match time_periods with
      | [] => true
      | _ => Pandas.isin (time_period r) time_periods
      end)
  && ((sat =? "All") || (Pandas.astype_str (satisfaction_bucket r) =? sat)).

(** The filter with the room-type step left out. *)
Definition without_room_types (df : Frame) (time_periods : list string)
    (sat : string) : Frame :=
  let d := df in
  let d := if truthy time_periods
           then Pandas.select
                  (fun r => Pandas.isin (time_period r) time_periods) d
           else d in
  if negb (sat =? "All")
  then Pandas.select
         (fun r => Pandas.astype_str (satisfaction_bucket r) =? sat) d
  else d.

(** The filter with the time-period step left out. *)
Definition without_time_periods (df : Frame) (room_types : list string)
    (sat : string) : Frame :=
  let d := df in
  let d := if truthy room_types
           then Pandas.select
                  (fun r => Pandas.isin (room_type r) room_types) d
           else d in
  if negb (sat =? "All")
  then Pandas.select
         (fun r => Pandas.astype_str (satisfaction_bucket r) =? sat) d
  else d.

(** Only the room-type and the time-period filters. *)
Definition room_and_time_only (df : Frame)
    (room_types time_periods : list string) : Frame :=
  let d := df in
  let d := if truthy room_types
           then Pandas.select
                  (fun r => Pandas.isin (room_type r) room_types) d
           else d in
  if truthy time_periods
  then Pandas.select (fun r => Pandas.isin (time_period r) time_periods) d
  else d.

(** A selection that names a value no row has: an unknown room type,
    time period or satisfaction bucket. *)
Definition names_unknown_value (df : Frame)
    (room_types time_periods : list string) (sat : string) : Prop :=
  (exists v, In v room_types /\ ~ In v (map room_type (rows df))) \/
  (exists v, In v time_periods /\ ~ In v (map time_period (rows df))) \/
  (sat <> "All" /\ ~ In (Some sat) (map satisfaction_bucket (rows df))).

(** A selection some active filter of which matches no row: every
    selected room type is unknown, or every selected time period is, or
    the selected satisfaction is the text of no row's bucket. *)
Definition matches_nothing (df : Frame)
    (room_types time_periods : list string) (sat : string) : Prop :=
  (room_types <> [] /\
   forall v, In v room_types -> ~ In v (map room_type (rows df))) \/
  (time_periods <> [] /\
   forall v, In v time_periods -> ~ In v (map time_period (rows df))) \/
  (sat <> "All" /\
   ~ In sat (map (fun r => Pandas.astype_str (satisfaction_bucket r))
                 (rows df))).

(** [l1] is [l2] with some elements left out, the others in place. *)
Inductive Subseq {A : Type} : list A -> list A -> Prop :=
| Subseq_nil : Subseq [] []
| Subseq_skip x l1 l2 : Subseq l1 l2 -> Subseq l1 (x :: l2)
| Subseq_keep x l1 l2 : Subseq l1 l2 -> Subseq (x :: l1) (x :: l2).

(** The number of distinct keys among the rows of [d]. *)
Definition distinct_keys (d : Frame) : nat :=
  List.length (nodup key_dec (map key_of (rows d))).

End Spec.

Definition Row_eq_dec (a b : Row) : {a = b} + {a <> b}.
Proof. repeat decide equality. Defined.

(** ** The datasets of the specification's scenarios *)

Definition listing (rt tp : string) (price : Q) (sb : option string) : Row :=
  {| realSum := price; price_per_person := price; dist := 1; attr_index := 1;
     person_capacity := 1; room_type := rt; time_period := tp;
     distance_bucket := "Near"; satisfaction_bucket := sb;
     host_is_superhost := false |}.

Definition csv_listing (rt tp : string) (price : Q) (sb : string) : CsvRecord :=
  {| csv_realSum := price; csv_price_per_person := price; csv_dist := 1;
     csv_attr_index := 1; csv_person_capacity := 1; csv_room_type := rt;
     csv_time_period := tp; csv_distance_bucket := "Near";
     csv_satisfaction_bucket := sb; csv_host_is_superhost := false |}.

Definition scenario_file : list CsvRecord :=
  [ csv_listing "Entire home" "Weekday" 100 "";
    csv_listing "Private room" "Weekday" 50 "High";
    csv_listing "Entire home" "Weekend" 200 "Low" ].

Definition scenario_df : Frame := load scenario_file.

Definition row1 : Row := listing "Entire home" "Weekday" 100 None.
Definition row2 : Row := listing "Private room" "Weekday" 50 (Some "High").
Definition row3 : Row := listing "Entire home" "Weekend" 200 (Some "Low").

(** ** Derived quantities of the aggregation and of the option lists *)


(** The number of rows of [d] in the group of key [k]. *)
Definition group_size (d : Frame) (k : Key) : nat :=
  List.length (group_rows d k).


(** Ascending order of strings and of group keys. *)
Definition ascending (l : list string) : Prop :=
  Sorted (fun a b => String.leb a b = true) l.

Definition keys_ascending (l : list Key) : Prop :=
  Sorted (fun a b => key_leb a b = true) l.

(** The rows whose satisfaction bucket is present with label [s]. *)
Definition has_bucket (s : string) (r : Row) : bool :=
  match satisfaction_bucket r with
  | Some t => t =? s
  | None => false
  end.


(** * Properties *)

(** ** Membership, selection and the filter *)

Lemma isin_In (v : string) (values : list string) :
  Pandas.isin v values = true <-> In v values.
Proof.
  unfold Pandas.isin. rewrite existsb_exists. split.
  - intros [w [Hw Heq]]. apply String.eqb_eq in Heq. now subst.
  - intros Hv. exists v. split; [assumption | apply String.eqb_refl].
Qed.

Lemma truthy_nonempty {A : Type} (l : list A) : truthy l = true <-> l <> [].
Proof. destruct l; simpl; split; congruence. Qed.

Lemma filter_twice {A : Type} (f g : A -> bool) (l : list A) :
  filter g (filter f l) = filter (fun a => f a && g a) l.
Proof.
  induction l as [|a l IH]; simpl; [reflexivity|].
  destruct (f a); simpl; [destruct (g a)|]; now rewrite IH.
Qed.

Lemma filter_all {A : Type} (f : A -> bool) (l : list A) :
  (forall a, In a l -> f a = true) -> filter f l = l.
Proof.
  induction l as [|a l IH]; simpl; intros H; [reflexivity|].
  rewrite (H a (or_introl eq_refl)). f_equal. apply IH. auto.
Qed.

Lemma filter_none {A : Type} (f : A -> bool) (l : list A) :
  (forall a, In a l -> f a = false) -> filter f l = [].
Proof.
  induction l as [|a l IH]; simpl; intros H; [reflexivity|].
  rewrite (H a (or_introl eq_refl)). apply IH. auto.
Qed.

Lemma filter_true {A : Type} (l : list A) : filter (fun _ => true) l = l.
Proof. apply filter_all. reflexivity. Qed.

(** Unfolding [filter_df] on its three tests. *)
Ltac split_filter :=
  unfold filter_df, Spec.without_room_types, Spec.without_time_periods,
    Spec.room_and_time_only, Pandas.copy, Pandas.select; simpl;
  repeat match goal with
         | |- context [truthy ?l] => is_var l; destruct l; simpl
         | |- context [negb (?s =? "All")] =>
             is_var s; destruct (s =? "All"); simpl
         end.

(** The rows of the result, as one pass over the rows of the dataset. *)
Lemma rows_filter_df (df : Frame) (room_types time_periods : list string)
    (sat : string) :
  rows (filter_df df room_types time_periods sat) =
  filter (Spec.retainedb room_types time_periods sat) (rows df).
Proof.
  unfold Spec.retainedb. split_filter;
    rewrite ?filter_twice; try reflexivity;
    try (symmetry; apply filter_true);
    apply filter_ext; intros r; simpl; btauto.
Qed.

(** Selection never touches the categories. *)
Lemma categories_filter_df (df : Frame) (room_types time_periods : list string)
    (sat : string) :
  room_type_categories (filter_df df room_types time_periods sat) =
    room_type_categories df /\
  time_period_categories (filter_df df room_types time_periods sat) =
    time_period_categories df.
Proof. split_filter; split; reflexivity. Qed.

Lemma retainedb_spec (room_types time_periods : list string) (sat : string)
    (r : Row) :
  Spec.retainedb room_types time_periods sat r = true <->
  Spec.retained room_types time_periods sat r.
Proof.
  unfold Spec.retainedb, Spec.retained.
  rewrite !andb_true_iff, orb_true_iff, !String.eqb_eq.
  assert (Hm : forall (l : list string) (v : string),
             match l with [] => true | _ :: _ => Pandas.isin v l end = true
             <-> (l <> [] -> In v l)).
  { intros l v. destruct l as [|a l].
    - split; [intros _ H; now elim H | reflexivity].
    - rewrite isin_In. split; [auto | intros H; apply H; discriminate]. }
  rewrite !Hm. split.
  - intros [[H1 H2] H3]. repeat split; try assumption.
    intros Hs. destruct H3 as [H3|H3]; [contradiction | assumption].
  - intros [H1 [H2 H3]]. repeat split; try assumption.
    destruct (string_dec sat "All") as [e|n]; [left | right]; auto.
Qed.

Lemma Subseq_filter {A : Type} (f : A -> bool) (l : list A) :
  Spec.Subseq (filter f l) l.
Proof.
  induction l as [|a l IH]; simpl; [constructor|].
  destruct (f a); now constructor.
Qed.

Lemma Subseq_length {A : Type} (l1 l2 : list A) :
  Spec.Subseq l1 l2 -> (List.length l1 <= List.length l2)%nat.
Proof. induction 1; simpl; lia. Qed.

Lemma Subseq_count (l1 l2 : list Row) (r : Row) :
  Spec.Subseq l1 l2 ->
  (count_occ Row_eq_dec l1 r <= count_occ Row_eq_dec l2 r)%nat.
Proof.
  induction 1 as [| a l1 l2 _ IH | a l1 l2 _ IH]; simpl;
    try destruct (Row_eq_dec a r); lia.
Qed.

Lemma Subseq_In {A : Type} (l1 l2 : list A) (a : A) :
  Spec.Subseq l1 l2 -> In a l1 -> In a l2.
Proof.
  induction 1 as [| b l1 l2 _ IH | b l1 l2 _ IH]; simpl; intuition.
Qed.

Lemma In_filter_df (df : Frame) (room_types time_periods : list string)
    (sat : string) (r : Row) :
  In r (rows (filter_df df room_types time_periods sat)) <->
  In r (rows df) /\ Spec.retained room_types time_periods sat r.
Proof. rewrite rows_filter_df, filter_In, retainedb_spec. reflexivity. Qed.

(** C1: an empty [room_types] (or [time_periods]) list gives the result of
    the filter without that step.  Every row passes on that axis: a row is
    kept exactly when it meets the conditions of the other two axes,
    whatever its room type (or time period).  With both lists empty and
    satisfaction "All" the whole dataset comes back. *)
Theorem empty_selection_is_no_filter (df : Frame)
    (room_types time_periods : list string) (sat : string) :
  filter_df df [] time_periods sat = Spec.without_room_types df time_periods sat
  /\ filter_df df room_types [] sat =
     Spec.without_time_periods df room_types sat
  /\ (forall r, In r (rows (filter_df df [] time_periods sat)) <->
                In r (rows df) /\
                (time_periods <> [] -> In (time_period r) time_periods) /\
                (sat <> "All" ->
                 Pandas.astype_str (satisfaction_bucket r) = sat))
  /\ (forall r, In r (rows (filter_df df room_types [] sat)) <->
                In r (rows df) /\
                (room_types <> [] -> In (room_type r) room_types) /\
                (sat <> "All" ->
                 Pandas.astype_str (satisfaction_bucket r) = sat))
  /\ filter_df df [] [] "All" = df.
Proof.
  split; [split_filter; reflexivity|].
  split; [split_filter; reflexivity|].
  split; [|split].
  - intros r. rewrite In_filter_df. unfold Spec.retained. intuition.
  - intros r. rewrite In_filter_df. unfold Spec.retained. intuition.
  - reflexivity.
Qed.

(** C2: the result holds exactly the rows of the dataset that satisfy the
    three conditions, each as often and in the order in which the dataset
    has it. *)
Theorem filter_df_keeps_exactly_matching (df : Frame)
    (room_types time_periods : list string) (sat : string) :
  rows (filter_df df room_types time_periods sat) =
    filter (Spec.retainedb room_types time_periods sat) (rows df)
  /\ (forall r, Spec.retainedb room_types time_periods sat r = true <->
                Spec.retained room_types time_periods sat r)
  /\ (forall r, In r (rows (filter_df df room_types time_periods sat)) <->
                In r (rows df) /\ Spec.retained room_types time_periods sat r).
Proof.
  split; [apply rows_filter_df|]. split; [apply retainedb_spec|].
  intros r. apply In_filter_df.
Qed.

(** The filtering scenario of the specification: rows 1 and 3. *)
Example scenario_filter :
  rows (filter_df scenario_df ["Entire home"] [] "All") = [row1; row3].
Proof. reflexivity. Qed.

(** C4: with satisfaction "All" the filter is the room-type and time-period
    filters alone. *)
Theorem all_is_room_and_time_only (df : Frame)
    (room_types time_periods : list string) :
  filter_df df room_types time_periods "All" =
  Spec.room_and_time_only df room_types time_periods.
Proof.
  unfold filter_df, Spec.room_and_time_only, Pandas.copy. reflexivity.
Qed.

(** C5: the result is the dataset with some rows left out: no row is made
    up, no row occurs more often than in the dataset, and the rows kept
    stay in their order. *)
Theorem filter_df_subsequence (df : Frame)
    (room_types time_periods : list string) (sat : string) :
  let out := rows (filter_df df room_types time_periods sat) in
  Spec.Subseq out (rows df)
  /\ (forall r, In r out -> In r (rows df))
  /\ (forall r, (count_occ Row_eq_dec out r <=
                 count_occ Row_eq_dec (rows df) r)%nat)
  /\ (List.length out <= List.length (rows df))%nat.
Proof.
  intros out.
  assert (H : Spec.Subseq out (rows df)).
  { unfold out. rewrite rows_filter_df. apply Subseq_filter. }
  repeat split.
  - exact H.
  - intros r. now apply Subseq_In.
  - intros r. now apply Subseq_count.
  - now apply Subseq_length.
Qed.

(** ** Unknown values and missing satisfaction buckets *)

Lemma unique_In {A : Type} (dec : forall a b : A, {a = b} + {a <> b})
    (l : list A) (a : A) :
  In a (Pandas.unique dec l) <-> In a l.
Proof.
  unfold Pandas.unique. now rewrite <- in_rev, nodup_In, <- in_rev.
Qed.

Lemma unique_NoDup {A : Type} (dec : forall a b : A, {a = b} + {a <> b})
    (l : list A) :
  NoDup (Pandas.unique dec l).
Proof. unfold Pandas.unique. apply NoDup_rev, NoDup_nodup. Qed.

Lemma dropna_In (l : list (option string)) (s : string) :
  In s (Pandas.dropna l) <-> In (Some s) l.
Proof.
  induction l as [|[t|] l IH]; simpl.
  - reflexivity.
  - rewrite IH. intuition congruence.
  - rewrite IH. intuition congruence.
Qed.

(** No cell that [read_csv] leaves present has the text of a NaN. *)
Lemma read_cell_present (s t : string) :
  Pandas.read_cell s = Some t -> t <> Pandas.astype_str None.
Proof.
  unfold Pandas.read_cell. destruct (Pandas.isin s Pandas.na_values) eqn:E.
  - discriminate.
  - intros [= <-] ->. vm_compute in E. discriminate.
Qed.

Lemma loaded_bucket_not_nan (file : list CsvRecord) (s : string) :
  In (Some s) (map satisfaction_bucket (rows (load file))) ->
  s <> Pandas.astype_str None.
Proof.
  simpl. unfold read_csv. rewrite map_map. rewrite in_map_iff.
  intros [c [Hc _]]. simpl in Hc. now apply read_cell_present in Hc.
Qed.

Lemma sat_bucket_options_In (df : Frame) (s : string) :
  In s (map value (sat_bucket_options df)) <->
  In (Some s) (map satisfaction_bucket (rows df)).
Proof.
  unfold sat_bucket_options. rewrite map_map. simpl. rewrite map_id.
  now rewrite unique_In, dropna_In.
Qed.

(** With a satisfaction other than "All" and other than the text of NaN,
    the rows kept have exactly that bucket. *)
Lemma filter_df_bucket (df : Frame) (room_types time_periods : list string)
    (sat : string) (r : Row) :
  sat <> "All" -> sat <> Pandas.astype_str None ->
  In r (rows (filter_df df room_types time_periods sat)) ->
  satisfaction_bucket r = Some sat.
Proof.
  intros Hall Hnan Hin.
  apply In_filter_df in Hin.
  destruct Hin as [_ [_ [_ Hs]]]. specialize (Hs Hall).
  unfold Pandas.astype_str in *.
  destruct (satisfaction_bucket r) as [s|]; congruence.
Qed.

(** C10: on a loaded dataset, when the selected satisfaction is not "All"
    and is one of the bucket labels that [sat_bucket_options] offers, no
    row with a missing bucket is in the result: the text of NaN is none of
    these labels. *)
Theorem missing_bucket_excluded (file : list CsvRecord)
    (room_types time_periods : list string) (sat : string) (r : Row) :
  sat <> "All" ->
  In sat (map value (sat_bucket_options (load file))) ->
  satisfaction_bucket r = None ->
  ~ In r (rows (filter_df (load file) room_types time_periods sat)).
Proof.
  intros Hall Hopt Hmiss Hin.
  apply sat_bucket_options_In, loaded_bucket_not_nan in Hopt.
  apply filter_df_bucket in Hin; try assumption. congruence.
Qed.

Lemma missing_bucket_excluded_witness :
  "Low" <> "All" /\
  In "Low" (map value (sat_bucket_options (load scenario_file))) /\
  satisfaction_bucket row1 = None /\
  ~ In row1 (rows (filter_df (load scenario_file) [] [] "Low")).
Proof.
  assert (H1 : "Low" <> "All") by discriminate.
  assert (H2 : In "Low" (map value (sat_bucket_options (load scenario_file))))
    by (simpl; auto).
  assert (H3 : satisfaction_bucket row1 = None) by reflexivity.
  repeat split; try assumption.
  exact (missing_bucket_excluded scenario_file [] [] "Low" row1 H1 H2 H3).
Defined.

(** ** The dataset is never written *)

Module StoreFacts.
Lemma bind_Some {A B : Type} (c : Store.M A) (k : A -> Store.M B)
    (h h' : Store.Heap) (a : A) :
  c h = Some (a, h') -> Store.bind c k h = k a h'.
Proof. unfold Store.bind. now intros ->. Qed.

(** Objects at addresses in use stay where they are when the heap grows. *)
Lemma nth_error_grow (h t : Store.Heap) (p : Store.ref) (o : Store.Obj) :
  nth_error h p = Some o -> nth_error (h ++ t) p = Some o.
Proof.
  intros H. rewrite nth_error_app1; [assumption|].
  apply nth_error_Some. congruence.
Qed.

Lemma nth_error_last (h : Store.Heap) (o : Store.Obj) :
  nth_error (h ++ [o]) (List.length h) = Some o.
Proof. rewrite nth_error_app2, Nat.sub_diag by lia. reflexivity. Qed.

Lemma read_frame_ok (h : Store.Heap) (p : Store.ref) (d : Frame) :
  nth_error h p = Some (Store.ListingFrame d) ->
  Store.read_frame p h = Some (d, h).
Proof. unfold Store.read_frame. now intros ->. Qed.

Lemma copy_returns (h : Store.Heap) (p : Store.ref) (d : Frame) :
  nth_error h p = Some (Store.ListingFrame d) ->
  Store.returns (List.length h) (Store.copy p) h (Pandas.copy d).
Proof.
  intros H. exists (List.length h), [Store.ListingFrame (Pandas.copy d)].
  unfold Store.copy. rewrite (bind_Some _ _ _ _ _ (read_frame_ok _ _ _ H)).
  split; [reflexivity|]. split; [apply nth_error_last | lia].
Qed.

Lemma step_returns (n : nat) (b : bool) (mask : Row -> bool) (h : Store.Heap)
    (p : Store.ref) (d : Frame) :
  nth_error h p = Some (Store.ListingFrame d) -> (n <= p)%nat ->
  Store.returns n (if b then Store.getitem mask p else Store.ret p) h
                (if b then Pandas.select mask d else d).
Proof.
  intros H Hn. destruct b.
  - exists (List.length h), [Store.ListingFrame (Pandas.select mask d)].
    unfold Store.getitem.
    rewrite (bind_Some _ _ _ _ _ (read_frame_ok _ _ _ H)).
    split; [reflexivity|]. split; [apply nth_error_last|].
    assert (p < List.length h)%nat by (apply nth_error_Some; congruence).
    lia.
  - exists p, []. unfold Store.ret. rewrite app_nil_r. auto.
Qed.

(** Sequencing: if [c] returns [d1] and [k] returns [d2] from any
    reference to [d1], then [c ;; k] returns [d2]. *)
Lemma bind_returns (n : nat) (c : Store.M Store.ref)
    (k : Store.ref -> Store.M Store.ref) (h : Store.Heap) (d1 d2 : Frame) :
  Store.returns n c h d1 ->
  (forall h' p, nth_error h' p = Some (Store.ListingFrame d1) ->
                (n <= p)%nat -> Store.returns n (k p) h' d2) ->
  Store.returns n (Store.bind c k) h d2.
Proof.
  intros [p [t [Hc [Hp Hn]]]] Hk.
  destruct (Hk _ _ Hp Hn) as [q [u [Hq [Hu Hm]]]].
  exists q, (t ++ u)%list. rewrite (bind_Some _ _ _ _ _ Hc).
  rewrite app_assoc. auto.
Qed.

(** The heap-level [filter_df] runs without raising and returns a new
    object (its address is not in use before the call) whose content is
    the pure [filter_df] of the dataset. *)
Lemma filter_df_returns (h : Store.Heap) (df : Store.ref) (fr : Frame)
    (room_types time_periods : list string) (sat : string) :
  nth_error h df = Some (Store.ListingFrame fr) ->
  Store.returns (List.length h)
                (Store.filter_df df room_types time_periods sat) h
                (filter_df fr room_types time_periods sat).
Proof.
  intros H. unfold Store.filter_df, filter_df.
  eapply bind_returns; [apply copy_returns; eassumption|].
  intros h1 p1 H1 N1.
  eapply bind_returns; [apply step_returns; eassumption|].
  intros h2 p2 H2 N2.
  eapply bind_returns; [apply step_returns; eassumption|].
  intros h3 p3 H3 N3.
  eapply bind_returns; [apply step_returns; eassumption|].
  intros h4 p4 H4 N4. exists p4, []. unfold Store.ret. rewrite app_nil_r. auto.
Qed.

(** A call only appends to the heap. *)
Lemma run_call_grows (o : bool) (h : Store.Heap) (df : Store.ref)
    (fr : Frame) (c : Store.Call) :
  nth_error h df = Some (Store.ListingFrame fr) ->
  exists t, Store.run_call o df c h = Some (tt, (h ++ t)%list).
Proof.
  intros H. destruct c as [rt tp sat | cb rt tp sat]; simpl.
  - destruct (filter_df_returns h df fr rt tp sat H) as [p [t [Hc _]]].
    exists t. now rewrite (bind_Some _ _ _ _ _ Hc).
  - destruct (filter_df_returns h df fr rt tp sat H) as [p [t [Hc [Hp _]]]].
    unfold Store.callback, Store.bind. rewrite Hc.
    destruct cb; try (exists t; reflexivity).
    unfold Store.read_frame. rewrite Hp.
    eexists. unfold Store.alloc, Store.ret. rewrite <- app_assoc.
    reflexivity.
Qed.

Lemma run_calls_grows (o : bool) (df : Store.ref) (fr : Frame)
    (cs : list Store.Call) :
  forall h, nth_error h df = Some (Store.ListingFrame fr) ->
  exists t, Store.run_calls o df cs h = Some (tt, (h ++ t)%list).
Proof.
  induction cs as [|c cs IH]; intros h H; simpl.
  - exists []. unfold Store.ret. now rewrite app_nil_r.
  - destruct (run_call_grows o h df fr c H) as [t Ht].
    rewrite (bind_Some _ _ _ _ _ Ht).
    destruct (IH (h ++ t)%list (nth_error_grow _ _ _ _ H)) as [u Hu].
    exists (t ++ u)%list. now rewrite app_assoc.
Qed.

End StoreFacts.

(** C6: whatever sequence of filter calls and chart callbacks runs after
    the load, each with any selection, none raises and the object that
    [df] refers to is the frame that was loaded.  What a filter call
    returns is a new object, never [df] itself, holding the pure result. *)
Theorem dataset_never_mutated (file : list CsvRecord)
    (observed_default : bool) (calls : list Store.Call) :
  (exists h,
     Store.run_calls observed_default Store.df calls (Store.boot file)
       = Some (tt, h)
     /\ nth_error h Store.df = Some (Store.ListingFrame (load file))
     /\ firstn 1 h = Store.boot file)
  /\ (forall room_types time_periods sat,
      exists p h,
        Store.filter_df Store.df room_types time_periods sat (Store.boot file)
          = Some (p, h)
        /\ p <> Store.df
        /\ nth_error h p =
             Some (Store.ListingFrame
                     (filter_df (load file) room_types time_periods sat))
        /\ nth_error h Store.df = Some (Store.ListingFrame (load file))).
Proof.
  split.
  - destruct (StoreFacts.run_calls_grows observed_default Store.df (load file)
                calls (Store.boot file) eq_refl) as [t Ht].
    exists (Store.boot file ++ t)%list.
    repeat split; assumption || reflexivity.
  - intros rt tp sat.
    destruct (StoreFacts.filter_df_returns (Store.boot file) Store.df
                (load file) rt tp sat eq_refl) as [p [t [Hc [Hp Hn]]]].
    exists p, (Store.boot file ++ t)%list. repeat split; try assumption.
    simpl in Hn. unfold Store.df. lia.
Qed.

(** ** Selections that match nothing *)

(** C7, as amended: when some active filter matches no row (a non-empty
    [room_types] or [time_periods] none of whose values occurs in the
    dataset, or a satisfaction other than "All" that is the text of no
    row's bucket, NaN counting as the text "nan"), the result has no rows,
    and the call does not raise: run on a heap where [p] refers to the
    dataset, [filter_df] returns a reference to that empty result. *)
Theorem unknown_selection_gives_no_rows (df : Frame)
    (room_types time_periods : list string) (sat : string)
    (h : Store.Heap) (p : Store.ref) :
  Spec.matches_nothing df room_types time_periods sat ->
  nth_error h p = Some (Store.ListingFrame df) ->
  rows (filter_df df room_types time_periods sat) = []
  /\ Store.returns (List.length h)
                   (Store.filter_df p room_types time_periods sat) h
                   (filter_df df room_types time_periods sat).
Proof.
  intros H Hp. split; [|now apply StoreFacts.filter_df_returns].
  rewrite rows_filter_df. apply filter_none. intros r Hr.
  apply not_true_is_false. rewrite retainedb_spec.
  intros [H1 [H2 H3]].
  destruct H as [[Hne Hun] | [[Hne Hun] | [Hne Hun]]].
  - apply (Hun (room_type r)); [auto | now apply in_map].
  - apply (Hun (time_period r)); [auto | now apply in_map].
  - apply Hun. rewrite <- (H3 Hne).
    now apply (in_map (fun r => Pandas.astype_str (satisfaction_bucket r))).
Qed.

Lemma unknown_selection_gives_no_rows_witness :
  Spec.matches_nothing scenario_df ["Castle"] [] "All" /\
  nth_error (Store.boot scenario_file) Store.df
    = Some (Store.ListingFrame scenario_df) /\
  rows (filter_df scenario_df ["Castle"] [] "All") = [] /\
  Store.returns 1 (Store.filter_df Store.df ["Castle"] [] "All")
                (Store.boot scenario_file)
                (filter_df scenario_df ["Castle"] [] "All").
Proof.
  assert (H : Spec.matches_nothing scenario_df ["Castle"] [] "All").
  { left. split; [discriminate|].
    intros v [<- | []]. simpl. intuition discriminate. }
  assert (Hp : nth_error (Store.boot scenario_file) Store.df
               = Some (Store.ListingFrame scenario_df)) by reflexivity.
  split; [exact H|]. split; [exact Hp|].
  exact (unknown_selection_gives_no_rows scenario_df ["Castle"] [] "All"
           (Store.boot scenario_file) Store.df H Hp).
Defined.

(** C7 as stated fails twice on the scenario dataset.  A selection that
    lists the unknown room type "Castle" beside a known one returns the
    rows of the known one; and the satisfaction "nan", the bucket of no
    row, returns the row whose bucket is missing, because [astype(str)]
    turns NaN into that text. *)
Lemma unknown_value_counterexample :
  (Spec.names_unknown_value scenario_df ["Entire home"; "Castle"] [] "All" /\
   rows (filter_df scenario_df ["Entire home"; "Castle"] [] "All")
     = [row1; row3]) /\
  (Spec.names_unknown_value scenario_df [] [] "nan" /\
   rows (filter_df scenario_df [] [] "nan") = [row1]) /\
  ~ (forall df room_types time_periods sat,
        Spec.names_unknown_value df room_types time_periods sat ->
        rows (filter_df df room_types time_periods sat) = []).
Proof.
  assert (H1 : Spec.names_unknown_value scenario_df
                 ["Entire home"; "Castle"] [] "All").
  { left. exists "Castle". split; [simpl; auto|].
    simpl. intuition discriminate. }
  assert (H2 : Spec.names_unknown_value scenario_df [] [] "nan").
  { right. right. split; [discriminate|]. simpl. intuition discriminate. }
  repeat split; try assumption; try reflexivity.
  intros H. specialize (H _ _ _ _ H2). discriminate H.
Qed.

(** ** The preview table *)

Lemma cleaned_table_dispatch (df : Frame) (o : bool) (a : App) (ev : Event) :
  cleaned_table (dispatch df o a ev) = cleaned_table a.
Proof. destruct ev; reflexivity. Qed.

Lemma cleaned_table_fold (df : Frame) (o : bool) (events : list Event) :
  forall a,
    cleaned_table (fold_left (dispatch df o) events a) = cleaned_table a.
Proof.
  induction events as [|ev events IH]; intros a; simpl; [reflexivity|].
  rewrite IH. apply cleaned_table_dispatch.
Qed.

Lemma pages_cover {A : Type} (l : list A) (n k : nat) :
  (firstn n (skipn k l) ++ skipn (k + n) l)%list = skipn k l.
Proof.
  rewrite Nat.add_comm, <- skipn_skipn. apply firstn_skipn.
Qed.

(** C9: after the first load and any sequence of filter changes the preview
    table is the one of the layout: its records are the first 25 rows of
    the unfiltered dataset (all rows when there are fewer), in order, shown
    in pages of 10 that together hold exactly these records. *)
Theorem preview_table_fixed (df : Frame) (observed_default : bool)
    (events : list Event) :
  let t := cleaned_table (serve df observed_default events) in
  t = cleaned_table (layout df)
  /\ table_data t = firstn 25 (rows df)
  /\ page_size t = 10%nat
  /\ List.length (table_data t) = Nat.min 25 (List.length (rows df))
  /\ (page t 0 ++ page t 1 ++ page t 2)%list = table_data t
  /\ (forall n, List.length (page t n) <= 10)%nat.
Proof.
  intros t.
  assert (Ht : t = cleaned_table (layout df)).
  { unfold t, serve. now rewrite cleaned_table_fold. }
  rewrite Ht. unfold page. cbn [layout cleaned_table table_data page_size].
  unfold head_records. repeat split.
  - apply length_firstn.
  - set (l := firstn 25 (rows df)).
    assert (Hl : (List.length l <= 25)%nat).
    { unfold l. rewrite length_firstn. lia. }
    change (0 * 10)%nat with 0%nat. change (1 * 10)%nat with 10%nat.
    change (2 * 10)%nat with 20%nat. change (skipn 0 l) with l.
    assert (H3 : firstn 10 (skipn 20 l) = skipn 20 l).
    { apply firstn_all2. rewrite length_skipn. lia. }
    assert (H2 : (firstn 10 (skipn 10 l) ++ skipn 20 l)%list = skipn 10 l)
      by exact (pages_cover l 10 10).
    rewrite H3, H2. apply firstn_skipn.
  - intros n. rewrite length_firstn. lia.
Qed.

(** ** The aggregation *)

Lemma insert_perm {A : Type} (le : A -> A -> bool) (a : A) (l : list A) :
  Permutation (Pandas.insert le a l) (a :: l).
Proof.
  induction l as [|b l IH]; simpl; [reflexivity|].
  destruct (le a b); [reflexivity|].
  rewrite IH. apply perm_swap.
Qed.

Lemma sort_perm {A : Type} (le : A -> A -> bool) (l : list A) :
  Permutation (Pandas.sort le l) l.
Proof.
  induction l as [|a l IH]; simpl; [reflexivity|].
  rewrite insert_perm. now constructor.
Qed.

Lemma unique_length {A : Type} (dec : forall a b : A, {a = b} + {a <> b})
    (l : list A) :
  List.length (Pandas.unique dec l) = List.length (nodup dec l).
Proof.
  apply Permutation_length, NoDup_Permutation.
  - apply unique_NoDup.
  - apply NoDup_nodup.
  - intros a. now rewrite unique_In, nodup_In.
Qed.

Lemma categories_of_NoDup (l : list string) : NoDup (Pandas.categories_of l).
Proof.
  unfold Pandas.categories_of, Pandas.sorted.
  apply (Permutation_NoDup (Permutation_sym (sort_perm _ _))), unique_NoDup.
Qed.

Lemma sorted_unique_In (l : list string) (s : string) :
  In s (Pandas.sorted (Pandas.unique string_dec l)) <-> In s l.
Proof.
  unfold Pandas.sorted. rewrite <- (unique_In string_dec l s). split.
  - apply Permutation_in, sort_perm.
  - apply Permutation_in, Permutation_sym, sort_perm.
Qed.

Lemma load_categorical (file : list CsvRecord) : categorical (load file).
Proof.
  repeat split; simpl; try apply categories_of_NoDup;
    apply sorted_unique_In; now apply in_map.
Qed.

Lemma filter_df_categorical (df : Frame) (room_types time_periods : list string)
    (sat : string) :
  categorical df -> categorical (filter_df df room_types time_periods sat).
Proof.
  intros [Hr [Ht Hin]].
  destruct (categories_filter_df df room_types time_periods sat) as [Er Et].
  unfold categorical. rewrite Er, Et.
  split; [assumption|]. split; [assumption|].
  intros r Hrow. apply In_filter_df in Hrow. apply Hin, Hrow.
Qed.

Lemma NoDup_list_prod {A B : Type} (l : list A) (l' : list B) :
  NoDup l -> NoDup l' -> NoDup (list_prod l l').
Proof.
  intros Hl Hl'. induction Hl as [|a l Ha Hl IH]; simpl; [constructor|].
  apply NoDup_app.
  - apply NoDup_map_NoDup_ForallPairs; [|assumption].
    intros b1 b2 _ _ [=]. assumption.
  - assumption.
  - intros [a' b'] H1 H2. apply in_map_iff in H1.
    destruct H1 as [b [[= <- <-] _]].
    apply in_prod_iff in H2. destruct H2 as [H2 _]. contradiction.
Qed.

(** *** The result index *)

Lemma result_index_observed (d : Frame) :
  Permutation (result_index true d) (keys_present d).
Proof. apply sort_perm. Qed.

Lemma keys_present_In (d : Frame) (k : Key) :
  In k (keys_present d) <-> In k (map key_of (rows d)).
Proof. apply unique_In. Qed.

Lemma result_index_product_In (d : Frame) (k : Key) :
  In k (result_index false d) <->
  In (fst (fst k)) (map distance_bucket (rows d)) /\
  In (snd (fst k)) (room_type_categories d) /\
  In (snd k) (time_period_categories d).
Proof.
  unfold result_index. destruct k as [[db rt] tp]. simpl. split.
  - intros H. apply in_map_iff in H.
    destruct H as [[db' [rt' tp']] [E H]]. injection E as -> -> ->.
    rewrite !in_prod_iff, sorted_unique_In in H. tauto.
  - intros H. apply in_map_iff. exists (db, (rt, tp)).
    split; [reflexivity|].
    rewrite !in_prod_iff, sorted_unique_In. tauto.
Qed.

Lemma result_index_product_NoDup (d : Frame) :
  categorical d -> NoDup (result_index false d).
Proof.
  intros [Hr [Ht _]]. unfold result_index.
  apply NoDup_map_NoDup_ForallPairs.
  - intros [a [b c]] [a' [b' c']] _ _ [=]. congruence.
  - apply NoDup_list_prod; [|now apply NoDup_list_prod].
    apply categories_of_NoDup.
Qed.

Lemma result_index_product_length (d : Frame) :
  List.length (result_index false d) =
  (List.length (nodup string_dec (map distance_bucket (rows d)))
   * (List.length (room_type_categories d)
      * List.length (time_period_categories d)))%nat.
Proof.
  unfold result_index, Pandas.sorted.
  rewrite length_map, !length_prod, (Permutation_length (sort_perm _ _)).
  now rewrite unique_length.
Qed.

(** *** The groups *)

Lemma key_eqb_eq (a b : Key) : key_eqb a b = true <-> a = b.
Proof. unfold key_eqb. destruct (key_dec a b); split; congruence. Qed.

Lemma group_rows_In (d : Frame) (k : Key) (r : Row) :
  In r (group_rows d k) <-> In r (rows d) /\ key_of r = k.
Proof. unfold group_rows. now rewrite filter_In, key_eqb_eq. Qed.

Lemma group_rows_empty (d : Frame) (k : Key) :
  group_rows d k = [] <-> ~ In k (map key_of (rows d)).
Proof.
  split.
  - intros E H. apply in_map_iff in H. destruct H as [r [Hk Hr]].
    assert (Hg : In r (group_rows d k)) by now apply group_rows_In.
    rewrite E in Hg. contradiction.
  - intros H. apply filter_none. intros r Hr.
    apply not_true_is_false. rewrite key_eqb_eq. intros <-.
    apply H. now apply in_map.
Qed.

Lemma mean_or_nan_None (g : list Row) :
  mean_or_nan (map realSum g) = None <-> g = [].
Proof. destruct g; simpl; split; congruence. Qed.

Lemma mean_or_nan_Some (g : list Row) :
  g <> [] -> mean_or_nan (map realSum g) = Some (mean (map realSum g)).
Proof. destruct g; simpl; congruence. Qed.

Lemma groupby_mean_keys (observed : bool) (d : Frame) :
  map grp_key (groupby_mean observed d) = result_index observed d.
Proof. unfold groupby_mean. rewrite map_map. simpl. apply map_id. Qed.

Lemma groupby_mean_In (observed : bool) (d : Frame) (g : AvgRow) :
  In g (groupby_mean observed d) <->
  In (grp_key g) (result_index observed d) /\
  avg_price g = mean_or_nan (map realSum (group_rows d (grp_key g))).
Proof.
  unfold groupby_mean. rewrite in_map_iff. split.
  - intros [k [<- Hk]]. simpl. auto.
  - intros [Hk Ha]. exists (grp_key g). split; [|assumption].
    destruct g as [k a]. simpl in *. now subst.
Qed.

Lemma groupby_mean_length (observed : bool) (d : Frame) :
  List.length (groupby_mean observed d) = List.length (result_index observed d).
Proof. unfold groupby_mean. apply length_map. Qed.

Lemma result_index_NoDup (observed : bool) (d : Frame) :
  categorical d -> NoDup (result_index observed d).
Proof.
  intros Hd. destruct observed.
  - apply (Permutation_NoDup (Permutation_sym (result_index_observed d))).
    apply unique_NoDup.
  - now apply result_index_product_NoDup.
Qed.

Lemma result_index_observed_In (d : Frame) (k : Key) :
  In k (result_index true d) <-> In k (map key_of (rows d)).
Proof.
  rewrite <- keys_present_In. split.
  - apply Permutation_in, result_index_observed.
  - apply Permutation_in, Permutation_sym, result_index_observed.
Qed.

(** Whatever [observed] is, a key that occurs in the frame is in the
    result index. *)
Lemma present_key_in_index (observed : bool) (d : Frame) (k : Key) :
  categorical d -> In k (map key_of (rows d)) -> In k (result_index observed d).
Proof.
  intros [_ [_ Hcat]] Hk. destruct observed.
  - now apply result_index_observed_In.
  - apply result_index_product_In.
    apply in_map_iff in Hk. destruct Hk as [r [<- Hr]]. simpl.
    destruct (Hcat r Hr). repeat split; try assumption. now apply in_map.
Qed.

Lemma result_index_observed_length (d : Frame) :
  List.length (result_index true d) = Spec.distinct_keys d.
Proof.
  rewrite (Permutation_length (result_index_observed d)).
  apply unique_length.
Qed.

(** The aggregation scenario of the specification under [observed=True]:
    three groups, each with its own price as average. *)
Example scenario_aggregation_observed :
  update_avg_grp scenario_df true [] [] "All" =
  [ mkAvg ("Near", "Entire home", "Weekday") (Some 100%Q);
    mkAvg ("Near", "Entire home", "Weekend") (Some 200%Q);
    mkAvg ("Near", "Private room", "Weekday") (Some 50%Q) ].
Proof. reflexivity. Qed.

(** C3 as stated fails under [observed=False], the value that [groupby]
    takes up to pandas 2 when, as on line 295, the call leaves it out and a
    group key is categorical (lines 11-12).  The scenario dataset has 3
    distinct keys, but [grp] has 4 rows: one of them is for the combination
    (Near, Private room, Weekend), which no row has, with a NaN average. *)
Lemma aggregation_counterexample :
  let d := filter_df scenario_df [] [] "All" in
  let grp := update_avg_grp scenario_df false [] [] "All" in
  Spec.distinct_keys d = 3%nat
  /\ List.length grp = 4%nat
  /\ In (mkAvg ("Near", "Private room", "Weekend") None) grp
  /\ ~ In ("Near", "Private room", "Weekend") (map key_of (rows d)).
Proof.
  repeat split; try reflexivity.
  - vm_compute. tauto.
  - vm_compute. intuition discriminate.
Qed.

(** C3, as amended.  For the rows [d] that the filter returns on a loaded
    dataset, and either value of [observed]: [grp] has at most one row per
    key; the [avg_price] of a row is the arithmetic mean of [realSum] over
    the rows of [d] with its key, and NaN when there are none; and every
    key that occurs in [d] has its row, with the mean.  Under
    [observed=True] the keys of [grp] are exactly the keys that occur in
    [d], so [grp] has as many rows as [d] has distinct keys.  Under
    [observed=False] the keys of [grp] are all combinations of a distance
    bucket that occurs in [d] with a [room_type] category and a
    [time_period] category of the loaded dataset; the rows whose key does
    not occur in [d] are exactly those with a NaN average. *)
Theorem aggregation_rows (file : list CsvRecord) (room timep : list string)
    (sat : string) :
  let df := load file in
  let d := filter_df df room timep sat in
  (forall observed_default,
     let grp := update_avg_grp df observed_default room timep sat in
     NoDup (map grp_key grp)
     /\ (forall g, In g grp ->
           avg_price g = mean_or_nan (map realSum (group_rows d (grp_key g))))
     /\ (forall k, In k (map key_of (rows d)) ->
           In (mkAvg k (Some (mean (map realSum (group_rows d k))))) grp))
  /\ (let grp := update_avg_grp df true room timep sat in
      (forall k, In k (map grp_key grp) <-> In k (map key_of (rows d)))
      /\ List.length grp = Spec.distinct_keys d)
  /\ (let grp := update_avg_grp df false room timep sat in
      (forall k, In k (map grp_key grp) <->
                 In (fst (fst k)) (map distance_bucket (rows d)) /\
                 In (snd (fst k)) (room_type_categories df) /\
                 In (snd k) (time_period_categories df))
      /\ (forall g, In g grp ->
            (avg_price g = None <-> ~ In (grp_key g) (map key_of (rows d))))
      /\ List.length grp =
         (List.length (nodup string_dec (map distance_bucket (rows d)))
          * (List.length (room_type_categories df)
             * List.length (time_period_categories df)))%nat).
Proof.
  intros df d.
  assert (Hd : categorical d)
    by apply filter_df_categorical, load_categorical.
  destruct (categories_filter_df df room timep sat) as [Er Et].
  fold d in Er, Et. unfold update_avg_grp. fold d.
  split; [|split].
  - intros o. split; [|split].
    + rewrite groupby_mean_keys. now apply result_index_NoDup.
    + intros g Hg. now apply groupby_mean_In in Hg.
    + intros k Hk. apply groupby_mean_In. simpl. split.
      * now apply present_key_in_index.
      * symmetry. apply mean_or_nan_Some. rewrite group_rows_empty. tauto.
  - split.
    + intros k. rewrite groupby_mean_keys. apply result_index_observed_In.
    + rewrite groupby_mean_length. apply result_index_observed_length.
  - split; [|split].
    + intros k. rewrite groupby_mean_keys, <- Er, <- Et.
      apply result_index_product_In.
    + intros g Hg. apply groupby_mean_In in Hg. destruct Hg as [_ ->].
      rewrite mean_or_nan_None. apply group_rows_empty.
    + rewrite groupby_mean_length, <- Er, <- Et.
      apply result_index_product_length.
Qed.

(** * Further properties of the pipeline *)

(** ** How filters compose *)

Lemma Frame_ext (d1 d2 : Frame) :
  rows d1 = rows d2 ->
  room_type_categories d1 = room_type_categories d2 ->
  time_period_categories d1 = time_period_categories d2 ->
  d1 = d2.
Proof. destruct d1, d2; simpl; intros -> -> ->; reflexivity. Qed.

(** Two frames filtered out of the same one are equal when their rows are. *)
Lemma filter_df_ext (df1 df2 : Frame) (rt1 tp1 rt2 tp2 : list string)
    (s1 s2 : string) :
  room_type_categories df1 = room_type_categories df2 ->
  time_period_categories df1 = time_period_categories df2 ->
  rows (filter_df df1 rt1 tp1 s1) = rows (filter_df df2 rt2 tp2 s2) ->
  filter_df df1 rt1 tp1 s1 = filter_df df2 rt2 tp2 s2.
Proof.
  intros Hr Ht H.
  destruct (categories_filter_df df1 rt1 tp1 s1) as [E1 E2].
  destruct (categories_filter_df df2 rt2 tp2 s2) as [E3 E4].
  apply Frame_ext; congruence.
Qed.

(** X1: filtering the result of a filter again with the same selection
    changes nothing. *)
Theorem filter_df_idempotent (df : Frame)
    (room_types time_periods : list string) (sat : string) :
  filter_df (filter_df df room_types time_periods sat)
            room_types time_periods sat
  = filter_df df room_types time_periods sat.
Proof.
  destruct (categories_filter_df df room_types time_periods sat) as [E1 E2].
  apply Frame_ext.
  - rewrite (rows_filter_df (filter_df df room_types time_periods sat)).
    rewrite rows_filter_df, filter_twice. apply filter_ext.
    intros r. apply andb_diag.
  - destruct (categories_filter_df
                (filter_df df room_types time_periods sat)
                room_types time_periods sat) as [E _]. exact E.
  - destruct (categories_filter_df
                (filter_df df room_types time_periods sat)
                room_types time_periods sat) as [_ E]. exact E.
Qed.

(** X2: filtering in two rounds keeps the rows that meet both selections,
    whichever selection is applied first; and applying the room-type filter
    alone and then the other two filters gives the same frame as one call
    with all three. *)
Theorem filter_df_compose (df : Frame) (rt1 tp1 rt2 tp2 : list string)
    (s1 s2 : string) :
  (forall r, In r (rows (filter_df (filter_df df rt1 tp1 s1) rt2 tp2 s2)) <->
             In r (rows df) /\ Spec.retained rt1 tp1 s1 r
             /\ Spec.retained rt2 tp2 s2 r)
  /\ filter_df (filter_df df rt1 tp1 s1) rt2 tp2 s2
     = filter_df (filter_df df rt2 tp2 s2) rt1 tp1 s1
  /\ filter_df (filter_df df rt1 [] "All") [] tp2 s2 = filter_df df rt1 tp2 s2.
Proof.
  destruct (categories_filter_df df rt1 tp1 s1) as [A1 A2].
  destruct (categories_filter_df df rt2 tp2 s2) as [B1 B2].
  destruct (categories_filter_df df rt1 [] "All") as [C1 C2].
  split; [|split].
  - intros r. rewrite !In_filter_df. tauto.
  - apply filter_df_ext; try congruence.
    rewrite (rows_filter_df (filter_df df rt1 tp1 s1)).
    rewrite (rows_filter_df (filter_df df rt2 tp2 s2)).
    rewrite !rows_filter_df, !filter_twice. apply filter_ext.
    intros r. apply andb_comm.
  - apply filter_df_ext; try congruence.
    rewrite (rows_filter_df (filter_df df rt1 [] "All")).
    rewrite !rows_filter_df, filter_twice. apply filter_ext.
    intros r. unfold Spec.retainedb. simpl. btauto.
Qed.

Lemma isin_same (v : string) (l1 l2 : list string) :
  (In v l1 <-> In v l2) -> Pandas.isin v l1 = Pandas.isin v l2.
Proof.
  intros H. apply eq_true_iff_eq. now rewrite !isin_In.
Qed.

Lemma same_elements_nil (l : list string) :
  (forall v, In v [] <-> In v l) -> l = [].
Proof.
  destruct l as [|a l]; [reflexivity|].
  intros H. destruct (proj2 (H a) (or_introl eq_refl)).
Qed.

(** The room-type (or time-period) test of a row depends on the selected
    list only through its elements. *)
Lemma axis_test_same (v : string) (l1 l2 : list string) :
  (forall w, In w l1 <-> In w l2) ->
  match l1 with [] => true | _ :: _ => Pandas.isin v l1 end =
  match l2 with [] => true | _ :: _ => Pandas.isin v l2 end.
Proof.
  intros H. destruct l1 as [|a l1].
  - now rewrite (same_elements_nil l2 H).
  - destruct l2 as [|b l2].
    + assert (E : a :: l1 = []).
      { apply same_elements_nil. intros w. now rewrite H. }
      discriminate.
    + apply isin_same, H.
Qed.

(** X3: the result depends on the selected lists only through the values
    they hold: the order in which values were picked and repeated values
    make no difference. *)
Theorem filter_df_selection_as_set (df : Frame) (rt rt' tp tp' : list string)
    (sat : string) :
  (forall v, In v rt <-> In v rt') ->
  (forall v, In v tp <-> In v tp') ->
  filter_df df rt tp sat = filter_df df rt' tp' sat.
Proof.
  intros Hr Ht. apply filter_df_ext; try reflexivity.
  rewrite !rows_filter_df. apply filter_ext. intros r.
  unfold Spec.retainedb.
  now rewrite (axis_test_same (room_type r) rt rt' Hr),
              (axis_test_same (time_period r) tp tp' Ht).
Qed.

Lemma filter_df_selection_as_set_witness :
  (forall v, In v ["Entire home"; "Private room"] <->
             In v ["Private room"; "Entire home"; "Private room"]) /\
  (forall v, In v ["Weekday"] <-> In v ["Weekday"; "Weekday"]) /\
  filter_df scenario_df ["Entire home"; "Private room"] ["Weekday"] "All"
  = filter_df scenario_df ["Private room"; "Entire home"; "Private room"]
              ["Weekday"; "Weekday"] "All".
Proof.
  assert (H1 : forall v, In v ["Entire home"; "Private room"] <->
                         In v ["Private room"; "Entire home"; "Private room"])
    by (intros v; simpl; tauto).
  assert (H2 : forall v, In v ["Weekday"] <-> In v ["Weekday"; "Weekday"])
    by (intros v; simpl; tauto).
  split; [exact H1|]. split; [exact H2|].
  exact (filter_df_selection_as_set scenario_df _ _ _ _ "All" H1 H2).
Defined.

Lemma Subseq_filter_le {A : Type} (f g : A -> bool) (l : list A) :
  (forall a, In a l -> f a = true -> g a = true) ->
  Spec.Subseq (filter f l) (filter g l).
Proof.
  induction l as [|a l IH]; simpl; intros H; [constructor|].
  assert (IH' : Spec.Subseq (filter f l) (filter g l)) by (apply IH; auto).
  destruct (f a) eqn:Ef.
  - rewrite (H a (or_introl eq_refl) Ef). now constructor.
  - destruct (g a); [now constructor | assumption].
Qed.

(** X4: clearing a list, or adding values to a list that is not empty,
    never loses rows: every row kept before is still kept, in place.
    (Adding a value to an empty list can lose rows: empty means no
    filter.) *)
Theorem filter_df_monotone (df : Frame) (rt rt' tp tp' : list string)
    (sat : string) :
  (rt' <> [] -> rt <> [] /\ incl rt rt') ->
  (tp' <> [] -> tp <> [] /\ incl tp tp') ->
  Spec.Subseq (rows (filter_df df rt tp sat)) (rows (filter_df df rt' tp' sat)).
Proof.
  intros Hr Ht. rewrite !rows_filter_df.
  apply Subseq_filter_le. intros r _.
  rewrite !retainedb_spec. unfold Spec.retained.
  intros [H1 [H2 H3]]. repeat split; try assumption.
  - intros Hne. destruct (Hr Hne) as [Hn Hi]. auto.
  - intros Hne. destruct (Ht Hne) as [Hn Hi]. auto.
Qed.

Lemma filter_df_monotone_witness :
  (["Entire home"; "Private room"] <> [] ->
   ["Entire home"] <> [] /\
   incl ["Entire home"] ["Entire home"; "Private room"]) /\
  (@nil string <> [] -> ["Weekday"] <> [] /\ incl ["Weekday"] []) /\
  Spec.Subseq
    (rows (filter_df scenario_df ["Entire home"] ["Weekday"] "All"))
    (rows (filter_df scenario_df ["Entire home"; "Private room"] [] "All")).
Proof.
  assert (H1 : ["Entire home"; "Private room"] <> [] ->
               ["Entire home"] <> [] /\
               incl ["Entire home"] ["Entire home"; "Private room"]).
  { intros _. split; [discriminate | intros v; simpl; tauto]. }
  assert (H2 : @nil string <> [] ->
               ["Weekday"] <> [] /\ incl ["Weekday"] []).
  { intros H. now elim H. }
  split; [exact H1|]. split; [exact H2|].
  exact (filter_df_monotone scenario_df _ _ _ _ "All" H1 H2).
Defined.

(** X5: unknown room types listed beside other values are ignored: as long
    as [room_types] is not empty, appending values that no row has does
    not change the result. *)
Theorem unknown_room_types_ignored (df : Frame) (rt unknown tp : list string)
    (sat : string) :
  rt <> [] ->
  (forall v, In v unknown -> ~ In v (map room_type (rows df))) ->
  filter_df df (rt ++ unknown)%list tp sat = filter_df df rt tp sat.
Proof.
  intros Hne Hun. apply filter_df_ext; try reflexivity.
  rewrite !rows_filter_df. apply filter_ext_in. intros r Hr.
  unfold Spec.retainedb. f_equal. f_equal.
  destruct rt as [|a rt]; [congruence|]. simpl app. cbv iota.
  apply isin_same. simpl. rewrite in_app_iff. split; [|tauto].
  intros [H|[H|H]]; [tauto | tauto |].
  exfalso. apply (Hun _ H). now apply in_map.
Qed.

Lemma unknown_room_types_ignored_witness :
  ["Entire home"] <> [] /\
  (forall v, In v ["Castle"] -> ~ In v (map room_type (rows scenario_df))) /\
  filter_df scenario_df (["Entire home"] ++ ["Castle"])%list [] "All"
  = filter_df scenario_df ["Entire home"] [] "All".
Proof.
  assert (H1 : ["Entire home"] <> []) by discriminate.
  assert (H2 : forall v, In v ["Castle"] ->
                         ~ In v (map room_type (rows scenario_df))).
  { intros v [<- | []]. simpl. intuition discriminate. }
  split; [exact H1|]. split; [exact H2|].
  exact (unknown_room_types_ignored scenario_df _ _ [] "All" H1 H2).
Defined.

(** ** The option lists and the default selection *)

Section SortFacts.

Context {A : Type} (le : A -> A -> bool).
Hypothesis le_total : forall a b, le a b = true \/ le b a = true.

Let R (a b : A) : Prop := le a b = true.

Lemma insert_HdRel (a x : A) (l : list A) :
  R a x -> HdRel R a l -> HdRel R a (Pandas.insert le x l).
Proof.
  intros Hax Hl. destruct l as [|b l]; simpl.
  - now constructor.
  - destruct (le x b); constructor; [assumption|].
    now apply HdRel_inv in Hl.
Qed.

Lemma insert_Sorted (x : A) (l : list A) :
  Sorted R l -> Sorted R (Pandas.insert le x l).
Proof.
  induction l as [|a l IH]; simpl; intros Hs.
  - repeat constructor.
  - destruct (le x a) eqn:E.
    + constructor; [assumption | now constructor].
    + apply Sorted_inv in Hs. destruct Hs as [Hs Hh].
      constructor; [now apply IH|].
      apply insert_HdRel; [|assumption].
      destruct (le_total a x) as [H|H]; [exact H | congruence].
Qed.

Lemma sort_Sorted (l : list A) : Sorted R (Pandas.sort le l).
Proof.
  induction l as [|a l IH]; simpl; [constructor | now apply insert_Sorted].
Qed.

End SortFacts.

Lemma sorted_ascending (l : list string) : ascending (Pandas.sorted l).
Proof. apply sort_Sorted, String.leb_total. Qed.

Lemma sorted_unique_NoDup (l : list string) :
  NoDup (Pandas.sorted (Pandas.unique string_dec l)).
Proof. apply categories_of_NoDup. Qed.

Lemma option_values (l : list string) :
  map value (map (fun s => mkOption s s) l) = l.
Proof. rewrite map_map. simpl. apply map_id. Qed.

(** X6: the room-type dropdown offers exactly the room types that occur in
    the dataset, each once, in ascending order, every option labelled with
    its value; on a loaded dataset the same holds for the time-period
    checklist. *)
Theorem axis_options_sorted_distinct (file : list CsvRecord) (df : Frame) :
  (ascending (map value (room_type_options df))
   /\ NoDup (map value (room_type_options df))
   /\ (forall v, In v (map value (room_type_options df)) <->
                 In v (map room_type (rows df)))
   /\ (forall o, In o (room_type_options df) -> label o = value o))
  /\ (let tps := time_period_options (load file) in
      ascending (map value tps)
      /\ NoDup (map value tps)
      /\ (forall v, In v (map value tps) <->
                    In v (map time_period (rows (load file))))
      /\ (forall o, In o tps -> label o = value o)).
Proof.
  split.
  - unfold room_type_options. rewrite option_values.
    split; [apply sorted_ascending|]. split; [apply sorted_unique_NoDup|].
    split; [intros v; apply sorted_unique_In|].
    intros o Ho. apply in_map_iff in Ho. destruct Ho as [s [<- _]].
    reflexivity.
  - unfold time_period_options. rewrite option_values. simpl.
    unfold Pandas.categories_of.
    split; [apply sorted_ascending|]. split; [apply sorted_unique_NoDup|].
    split; [intros v; apply sorted_unique_In|].
    intros o Ho. apply in_map_iff in Ho. destruct Ho as [s [<- _]].
    reflexivity.
Qed.

Lemma all_options_pass (l : list string) (v : string) :
  In v l ->
  match l with [] => true | _ :: _ => Pandas.isin v l end = true.
Proof.
  intros H. destruct l; [reflexivity | now apply isin_In].
Qed.

(** X7: on a loaded dataset, selecting every option of a control is the
    same as selecting none; so with the values the layout gives the three
    controls at start (all room types, all time periods, "All") the filter
    returns the whole dataset. *)
Theorem default_selection_shows_all (file : list CsvRecord)
    (room_types time_periods : list string) (sat : string) :
  let df := load file in
  filter_df df (map value (room_type_options df)) time_periods sat
    = filter_df df [] time_periods sat
  /\ filter_df df room_types (map value (time_period_options df)) sat
    = filter_df df room_types [] sat
  /\ filter_df df (room_type_filter (layout df))
               (time_period_filter (layout df))
               (satisfaction_filter (layout df)) = df.
Proof.
  intros df.
  assert (Hr : forall r, In r (rows df) ->
             In (room_type r) (map value (room_type_options df))).
  { intros r Hin. unfold room_type_options. rewrite option_values.
    apply sorted_unique_In. now apply in_map. }
  assert (Ht : forall r, In r (rows df) ->
             In (time_period r) (map value (time_period_options df))).
  { intros r Hin. unfold time_period_options. rewrite option_values.
    apply sorted_unique_In. now apply (in_map time_period) in Hin. }
  split; [|split].
  - apply filter_df_ext; try reflexivity. rewrite !rows_filter_df.
    apply filter_ext_in. intros r Hin. unfold Spec.retainedb.
    now rewrite (all_options_pass _ _ (Hr r Hin)).
  - apply filter_df_ext; try reflexivity. rewrite !rows_filter_df.
    apply filter_ext_in. intros r Hin. unfold Spec.retainedb.
    now rewrite (all_options_pass _ _ (Ht r Hin)).
  - apply Frame_ext.
    + rewrite rows_filter_df. apply filter_all. intros r Hin.
      unfold Spec.retainedb. cbn [layout room_type_filter time_period_filter
                                   satisfaction_filter].
      rewrite (all_options_pass _ _ (Hr r Hin)).
      now rewrite (all_options_pass _ _ (Ht r Hin)).
    + apply categories_filter_df.
    + apply categories_filter_df.
Qed.

Lemma has_bucket_spec (s : string) (r : Row) :
  has_bucket s r = true <-> satisfaction_bucket r = Some s.
Proof.
  unfold has_bucket. destruct (satisfaction_bucket r) as [t|].
  - rewrite String.eqb_eq. split; congruence.
  - split; discriminate.
Qed.

(** X8: on a loaded dataset, every label that the satisfaction dropdown
    offers matches at least one row when no other filter is set, and a
    label other than "All" returns exactly the rows that carry it. *)
Theorem offered_bucket_matches (file : list CsvRecord) (s : string) :
  In s (map value (sat_bucket_options (load file))) ->
  rows (filter_df (load file) [] [] s) <> []
  /\ (s <> "All" ->
      rows (filter_df (load file) [] [] s)
      = filter (has_bucket s) (rows (load file))).
Proof.
  intros Hs. split.
  - apply sat_bucket_options_In in Hs.
    apply in_map_iff in Hs. destruct Hs as [r [Hb Hr]].
    assert (Hin : In r (rows (filter_df (load file) [] [] s))).
    { apply In_filter_df. split; [assumption|]. unfold Spec.retained.
      rewrite Hb. cbn [Pandas.astype_str]. repeat split; congruence. }
    intros E. rewrite E in Hin. contradiction.
  - intros Hall.
    apply sat_bucket_options_In, loaded_bucket_not_nan in Hs.
    rewrite rows_filter_df. apply filter_ext. intros r.
    apply eq_true_iff_eq. rewrite retainedb_spec, has_bucket_spec.
    unfold Spec.retained, Pandas.astype_str in *.
    destruct (satisfaction_bucket r) as [t|]; split.
    + intros [_ [_ H]]. now rewrite (H Hall).
    + intros [= ->]. repeat split; congruence.
    + intros [_ [_ H]]. specialize (H Hall). congruence.
    + discriminate.
Qed.

Lemma offered_bucket_matches_witness :
  In "High" (map value (sat_bucket_options (load scenario_file))) /\
  rows (filter_df (load scenario_file) [] [] "High") <> [] /\
  ("High" <> "All" ->
   rows (filter_df (load scenario_file) [] [] "High")
   = filter (has_bucket "High") (rows (load scenario_file))).
Proof.
  assert (H : In "High" (map value (sat_bucket_options (load scenario_file))))
    by (simpl; auto).
  split; [exact H|].
  exact (offered_bucket_matches scenario_file "High" H).
Defined.


(** ** The groups as a partition of the rows *)

Lemma list_sum_zero {A : Type} (l : list A) :
  list_sum (map (fun _ => 0%nat) l) = 0%nat.
Proof. induction l; simpl; auto. Qed.

Lemma list_sum_plus {A : Type} (f g : A -> nat) (l : list A) :
  list_sum (map (fun a => (f a + g a)%nat) l) =
  (list_sum (map f l) + list_sum (map g l))%nat.
Proof. induction l as [|a l IH]; simpl; [reflexivity | lia]. Qed.

Lemma key_eqb_refl (k : Key) : key_eqb k k = true.
Proof. now apply key_eqb_eq. Qed.

Lemma key_eqb_neq (a b : Key) : a <> b -> key_eqb a b = false.
Proof.
  intros H. apply not_true_is_false. now rewrite key_eqb_eq.
Qed.

(** A key is counted once in a duplicate-free list that holds it. *)
Lemma indicator_count (k : Key) (ks : list Key) :
  NoDup ks -> In k ks ->
  list_sum (map (fun k' => if key_eqb k k' then 1 else 0)%nat ks) = 1%nat.
Proof.
  induction 1 as [|a ks Ha Hks IH]; intros Hin; [contradiction|].
  simpl. destruct (key_dec k a) as [->|Hne].
  - rewrite key_eqb_refl.
    rewrite (map_ext_in _ (fun _ => 0%nat)), list_sum_zero; [reflexivity|].
    intros k' Hk'. rewrite key_eqb_neq; [reflexivity | congruence].
  - rewrite (key_eqb_neq _ _ Hne). destruct Hin as [->|Hin]; [congruence|].
    now rewrite IH.
Qed.

Lemma group_count (ks : list Key) (l : list Row) :
  NoDup ks -> (forall r, In r l -> In (key_of r) ks) ->
  list_sum
    (map (fun k => List.length (filter (fun r => key_eqb (key_of r) k) l)) ks)
  = List.length l.
Proof.
  intros Hks. induction l as [|r l IH]; intros Hcov; simpl.
  - apply list_sum_zero.
  - rewrite (map_ext _
      (fun k => ((if key_eqb (key_of r) k then 1 else 0)
                 + List.length
                     (filter (fun r => key_eqb (key_of r) k) l))%nat)).
    + rewrite list_sum_plus, indicator_count, IH.
      * reflexivity.
      * intros r' Hr'. apply Hcov. now right.
      * assumption.
      * apply Hcov. now left.
    + intros k. now destruct (key_eqb (key_of r) k).
Qed.

(** X10: the groups partition the filtered rows: whatever [observed] is,
    [grp] has no key twice and the sizes of the groups of its rows add up
    to the number of filtered rows, so every filtered row is averaged into
    exactly one row of [grp]. *)
Theorem groups_partition_rows (file : list CsvRecord)
    (observed_default : bool) (room timep : list string) (sat : string) :
  let d := filter_df (load file) room timep sat in
  let grp := update_avg_grp (load file) observed_default room timep sat in
  NoDup (map grp_key grp)
  /\ list_sum (map (fun g => group_size d (grp_key g)) grp)
     = List.length (rows d)
  /\ (forall r, In r (rows d) ->
        exists g, In g grp /\ grp_key g = key_of r
                  /\ In r (group_rows d (grp_key g))).
Proof.
  intros d grp.
  assert (Hd : categorical d)
    by apply filter_df_categorical, load_categorical.
  unfold grp, update_avg_grp. fold d. split; [|split].
  - rewrite groupby_mean_keys. now apply result_index_NoDup.
  - rewrite <- (map_map grp_key (group_size d)), groupby_mean_keys.
    apply group_count.
    + now apply result_index_NoDup.
    + intros r Hr. apply present_key_in_index; [assumption|].
      now apply in_map.
  - intros r Hr.
    exists (mkAvg (key_of r)
                  (mean_or_nan (map realSum (group_rows d (key_of r))))).
    split; [|split].
    + apply groupby_mean_In. split; [|reflexivity]. simpl.
      apply present_key_in_index; [assumption | now apply in_map].
    + reflexivity.
    + apply group_rows_In. auto.
Qed.

(** ** Sums and averages *)















(** X13: on a loaded dataset [grp] is empty exactly when the filter matched
    no row: a selection that matches nothing gives no rows at all, not a
    row of NaN per category combination, whatever [observed] is. *)
Theorem grp_empty_iff_no_rows (file : list CsvRecord)
    (observed_default : bool) (room timep : list string) (sat : string) :
  update_avg_grp (load file) observed_default room timep sat = [] <->
  rows (filter_df (load file) room timep sat) = [].
Proof.
  unfold update_avg_grp.
  set (d := filter_df (load file) room timep sat).
  assert (Hd : categorical d)
    by apply filter_df_categorical, load_categorical.
  split.
  - intros E. destruct (rows d) as [|r rs] eqn:Er; [reflexivity|].
    assert (Hk : In (key_of r) (result_index observed_default d)).
    { apply present_key_in_index; [assumption|].
      rewrite Er. now left. }
    rewrite <- groupby_mean_keys, E in Hk. contradiction.
  - intros E. unfold groupby_mean, result_index, keys_present.
    rewrite E. now destruct observed_default.
Qed.

(** X14: with [observed=True] the bar chart only gets what was selected:
    every row of [grp] has a room type among the selected ones (when some
    are selected), a time period among the selected ones (likewise), and an
    average that is not NaN. *)
Theorem observed_groups_respect_selection (df : Frame)
    (room timep : list string) (sat : string) (g : AvgRow) :
  In g (update_avg_grp df true room timep sat) ->
  (room <> [] -> In (grp_room_type g) room)
  /\ (timep <> [] -> In (grp_time_period g) timep)
  /\ avg_price g <> None.
Proof.
  unfold update_avg_grp. set (d := filter_df df room timep sat).
  intros Hg. apply groupby_mean_In in Hg. destruct Hg as [Hk Ha].
  apply result_index_observed_In in Hk.
  assert (Hk' := Hk). apply in_map_iff in Hk'.
  destruct Hk' as [r [Er Hr]]. apply In_filter_df in Hr.
  destruct Hr as [_ [H1 [H2 _]]].
  split; [|split].
  - unfold grp_room_type. now rewrite <- Er.
  - unfold grp_time_period. now rewrite <- Er.
  - intros Hn. rewrite Ha, mean_or_nan_None, group_rows_empty in Hn.
    now apply Hn.
Qed.

Lemma observed_groups_respect_selection_witness :
  let g := mkAvg ("Near", "Entire home", "Weekend") (Some 200%Q) in
  In g (update_avg_grp scenario_df true ["Entire home"] ["Weekend"] "All") /\
  (["Entire home"] <> [] -> In (grp_room_type g) ["Entire home"]) /\
  (["Weekend"] <> [] -> In (grp_time_period g) ["Weekend"]) /\
  avg_price g <> None.
Proof.
  intros g.
  assert (H : In g (update_avg_grp scenario_df true
                      ["Entire home"] ["Weekend"] "All"))
    by (left; reflexivity).
  split; [exact H|].
  exact (observed_groups_respect_selection scenario_df
           ["Entire home"] ["Weekend"] "All" g H).
Defined.

(** ** The order of the rows of [grp] *)

Lemma compare_refl (s : string) : String.compare s s = Eq.
Proof.
  pose proof (String.compare_antisym s s) as H.
  destruct (String.compare s s); simpl in H; congruence.
Qed.

Lemma leb_compare (a b : string) :
  String.leb a b = true -> a <> b -> String.compare a b = Lt.
Proof.
  unfold String.leb. intros H Hne.
  destruct (String.compare a b) eqn:E; try reflexivity; try discriminate.
  now apply String.compare_eq_iff in E.
Qed.

Lemma key_leb_total (a b : Key) : key_leb a b = true \/ key_leb b a = true.
Proof.
  destruct a as [[d1 r1] t1], b as [[d2 r2] t2]. unfold key_leb.
  rewrite (String.compare_antisym d1 d2), (String.compare_antisym r1 r2).
  destruct (String.compare d2 d1); simpl; auto.
  destruct (String.compare r2 r1); simpl; auto.
  apply String.leb_total.
Qed.

Lemma Sorted_map {A B : Type} (R : A -> A -> Prop) (R' : B -> B -> Prop)
    (f : A -> B)
    (l : list A) :
  (forall a a', R a a' -> R' (f a) (f a')) ->
  Sorted R l -> Sorted R' (map f l).
Proof.
  intros Hf. induction 1 as [|a l Hs IH Hh]; simpl; constructor.
  - assumption.
  - destruct Hh; simpl; constructor. auto.
Qed.

Lemma Sorted_app {A : Type} (R : A -> A -> Prop) (l1 l2 : list A) :
  Sorted R l1 -> Sorted R l2 ->
  (forall a, In a l1 -> HdRel R a l2) ->
  Sorted R (l1 ++ l2).
Proof.
  induction 1 as [|a l1 Hs IH Hh]; intros H2 Hb; simpl; [assumption|].
  constructor.
  - apply IH; [assumption|]. intros a' Ha'. apply Hb. now right.
  - destruct Hh; simpl.
    + apply Hb. now left.
    + now constructor.
Qed.

(** In a sorted list without duplicates neighbours are different. *)
Lemma Sorted_strict {A : Type} (R : A -> A -> Prop) (l : list A) :
  Sorted R l -> NoDup l -> Sorted (fun a b => R a b /\ a <> b) l.
Proof.
  induction 1 as [|a l Hs IH Hh]; intros Hn; constructor.
  - apply IH. now inversion Hn.
  - destruct Hh as [|b l Hab]; constructor. split; [assumption|].
    intros ->. inversion Hn as [|? ? Hnot _]. apply Hnot. now left.
Qed.

(** The product of two sorted lists is sorted lexicographically. *)
Lemma Sorted_list_prod {A B : Type} (RA : A -> A -> Prop)
    (RB : B -> B -> Prop)
    (l : list A) (l' : list B) :
  Sorted RA l -> Sorted RB l' ->
  Sorted (fun p q => RA (fst p) (fst q) \/
                     (fst p = fst q /\ RB (snd p) (snd q)))
         (list_prod l l').
Proof.
  intros Hl Hl'. induction Hl as [|a l Hs IH Hh]; simpl; [constructor|].
  apply Sorted_app.
  - apply (Sorted_map RB); [|assumption]. intros b b' Hb. right. auto.
  - assumption.
  - intros p Hp. destruct Hh as [|a' l Haa']; simpl; [constructor|].
    destruct l' as [|b' l']; [contradiction|]. simpl. constructor.
    apply in_map_iff in Hp. destruct Hp as [b [<- _]]. now left.
Qed.

Lemma categories_of_ascending (l : list string) :
  ascending (Pandas.categories_of l).
Proof. apply sorted_ascending. Qed.

(** X15: [grp] comes in ascending order of its keys (by distance bucket,
    then room type, then time period), under either value of [observed],
    so equal selections always give the bars in the same order. *)
Theorem grp_in_key_order (file : list CsvRecord) (observed_default : bool)
    (room timep : list string) (sat : string) :
  keys_ascending
    (map grp_key (update_avg_grp (load file) observed_default room timep sat)).
Proof.
  unfold update_avg_grp. rewrite groupby_mean_keys.
  destruct observed_default.
  - apply sort_Sorted, key_leb_total.
  - unfold result_index.
    destruct (categories_filter_df (load file) room timep sat) as [-> ->].
    cbn [load room_type_categories time_period_categories].
    set (Lt' := fun a b : string => String.leb a b = true /\ a <> b).
    apply (Sorted_map
             (fun p q : string * (string * string) =>
                Lt' (fst p) (fst q) \/
                (fst p = fst q /\
                 (Lt' (fst (snd p)) (fst (snd q)) \/
                  (fst (snd p) = fst (snd q) /\
                   String.leb (snd (snd p)) (snd (snd q)) = true))))).
    + intros [d1 [r1 t1]] [d2 [r2 t2]]. unfold Lt', key_leb. simpl.
      intros [[Hd Hne] | [<- [[Hr Hne] | [<- Ht]]]].
      * now rewrite (leb_compare _ _ Hd Hne).
      * now rewrite compare_refl, (leb_compare _ _ Hr Hne).
      * now rewrite !compare_refl.
    + apply (Sorted_list_prod Lt'
               (fun p q : string * string =>
                  Lt' (fst p) (fst q) \/
                  (fst p = fst q /\ String.leb (snd p) (snd q) = true))).
      * apply Sorted_strict; [apply sorted_ascending|].
        apply sorted_unique_NoDup.
      * apply (Sorted_list_prod Lt' (fun a b => String.leb a b = true)).
        -- apply Sorted_strict; [apply categories_of_ascending|].
           apply categories_of_NoDup.
        -- apply categories_of_ascending.
Qed.

(** ** The dashboard as a whole *)






